(** * Correlation of CMIP6 and ERA5 precipitation

    A shallow embedding of the notebook
    [animation_03_correlation_cmip6_era5.ipynb]: the per-cell Pearson
    correlation [get_corrcoef], the two idealised 360-day time axes and the
    yearly selection, the longitude shift and the remapping of ERA5 onto the
    CMIP6 grid, the loop that writes one frame per year, and the assembly of
    the frames into [output/correlation.gif] followed by the clean-up.

    The notebook's own code is a thin layer over numpy, cftime, xarray and
    PIL.  Each library call is embedded by what that library computes for the
    arguments the notebook passes (the default keyword arguments included),
    and the embedding says at each definition which call it stands for.

    Numbers.  numpy computes in binary64.  The numeric code below is written
    once over an interface [Arith] of the operations numpy applies, and is
    read in two ways:
    - [binary64]: Rocq's primitive floats, the IEEE 754 arithmetic the
      notebook really runs, used to evaluate the code at concrete inputs;
    - [xreal]: the reals extended with the two infinities and NaN, the exact
      arithmetic that binary64 rounds, used for statements about all inputs. *)

From Stdlib Require Import ZArith Reals Lra Lia List String Ascii Bool.
From Stdlib Require Import Floats FunctionalExtensionality Permutation.
From stdpp Require Import gmap strings sorting pretty.
Import ListNotations.

Set Default Proof Using "Type".

(** * The embedding *)

(** ** The arithmetic interface *)

(** The operations of numpy's float64 that the notebook reaches:
    conversion of a Python integer, the four operations, square root and the
    two comparisons.  [fltb] and [feqb] are IEEE comparisons: both are false
    as soon as one side is NaN. *)
Class Arith (F : Type) : Type := {
  fofZ : Z -> F;
  fadd : F -> F -> F;
  fsub : F -> F -> F;
  fmul : F -> F -> F;
  fdiv : F -> F -> F;
  fsqrt : F -> F;
  fltb : F -> F -> bool;
  feqb : F -> F -> bool
}.

Section Derived.
Context {F : Type} {AF : Arith F}.

Definition fzero : F := fofZ 0.
Definition fone : F := fofZ 1.

(** [x != x], numpy's [isnan]. *)
Definition fisnan (x : F) : bool := negb (feqb x x).
Definition fiszero (x : F) : bool := feqb x fzero.
Definition fisinf (x : F) : bool :=
  feqb x (fdiv fone fzero) || feqb x (fdiv (fofZ (-1)) fzero).
Definition fisfinite (x : F) : bool := negb (fisnan x) && negb (fisinf x).
End Derived.

(** ** Exact arithmetic: the extended reals *)

Inductive xreal : Type :=
| Fin (x : R)
| PInf
| NInf
| NaN.

Module XReal.
Local Open Scope R_scope.

(** The sign of a real, as a [comparison] with zero. *)
Definition sgn (x : R) : comparison :=
  match total_order_T x 0 with
  | inleft (left _) => Lt
  | inleft (right _) => Eq
  | inright _ => Gt
  end.

Definition xsgn (a : xreal) : comparison :=
  match a with
  | Fin x => sgn x
  | PInf => Gt
  | NInf => Lt
  | NaN => Eq
  end.

Definition sgn_mul (c d : comparison) : comparison :=
  match c, d with
  | Eq, _ | _, Eq => Eq
  | Lt, Lt | Gt, Gt => Gt
  | _, _ => Lt
  end.

(** The infinity of a given sign; the sign [Eq] is that of an invalid
    operation ([0 * inf], [0 / 0]) and yields NaN. *)
Definition signed_inf (c : comparison) : xreal :=
  match c with
  | Gt => PInf
  | Lt => NInf
  | Eq => NaN
  end.

Definition xopp (a : xreal) : xreal :=
  match a with
  | Fin x => Fin (- x)
  | PInf => NInf
  | NInf => PInf
  | NaN => NaN
  end.

Definition xadd (a b : xreal) : xreal :=
  match a, b with
  | NaN, _ | _, NaN => NaN
  | Fin x, Fin y => Fin (x + y)
  | PInf, NInf | NInf, PInf => NaN
  | PInf, _ | _, PInf => PInf
  | NInf, _ | _, NInf => NInf
  end.

Definition xsub (a b : xreal) : xreal := xadd a (xopp b).

Definition xmul (a b : xreal) : xreal :=
  match a, b with
  | NaN, _ | _, NaN => NaN
  | Fin x, Fin y => Fin (x * y)
  | _, _ => signed_inf (sgn_mul (xsgn a) (xsgn b))
  end.

(** Division.  There is one zero, and it divides as IEEE's [+0] does:
    [x / 0] is the infinity of the sign of [x], and [0 / 0] is NaN. *)
Definition xdiv (a b : xreal) : xreal :=
  match a, b with
  | NaN, _ | _, NaN => NaN
  | Fin x, Fin y =>
      if Req_dec_T y 0 then signed_inf (sgn x) else Fin (x / y)
  | Fin _, _ => Fin 0
  | _, Fin y =>
      signed_inf (sgn_mul (xsgn a) (if Req_dec_T y 0 then Gt else sgn y))
  | _, _ => NaN
  end.

Definition xsqrt (a : xreal) : xreal :=
  match a with
  | Fin x => if Rlt_dec x 0 then NaN else Fin (R_sqrt.sqrt x)
  | PInf => PInf
  | NInf | NaN => NaN
  end.

Definition xltb (a b : xreal) : bool :=
  match a, b with
  | Fin x, Fin y => if Rlt_dec x y then true else false
  | NInf, Fin _ | NInf, PInf | Fin _, PInf => true
  | _, _ => false
  end.

Definition xeqb (a b : xreal) : bool :=
  match a, b with
  | Fin x, Fin y => if Req_dec_T x y then true else false
  | PInf, PInf | NInf, NInf => true
  | _, _ => false
  end.
End XReal.

#[export] Instance xreal_arith : Arith xreal := {|
  fofZ := fun z => Fin (IZR z);
  fadd := XReal.xadd;
  fsub := XReal.xsub;
  fmul := XReal.xmul;
  fdiv := XReal.xdiv;
  fsqrt := XReal.xsqrt;
  fltb := XReal.xltb;
  feqb := XReal.xeqb
|}.

(** ** binary64: the kernel's IEEE 754 floats *)

Module Binary64.
(** A Python integer converted to float64 (exact below [2^53]). *)
Definition of_Z (z : Z) : float :=
  if (z <? 0)%Z
  then PrimFloat.opp (PrimFloat.of_uint63 (Uint63.of_Z (- z)))
  else PrimFloat.of_uint63 (Uint63.of_Z z).
End Binary64.

#[export] Instance binary64 : Arith float := {|
  fofZ := Binary64.of_Z;
  fadd := PrimFloat.add;
  fsub := PrimFloat.sub;
  fmul := PrimFloat.mul;
  fdiv := PrimFloat.div;
  fsqrt := PrimFloat.sqrt;
  fltb := PrimFloat.ltb;
  feqb := PrimFloat.eqb
|}.

(** ** numpy: floating-point error state, warnings and exceptions *)

(** How numpy treats a floating-point exception ([np.seterr]); the modes
    [call], [print] and [log] are not reached by the notebook. *)
Inductive errmode : Type := Ignore | Warn | Raise.

(** The two IEEE exceptions the notebook configures. *)
Inductive fpflag : Type := DivideByZero | InvalidValue.

Record errstate : Type := {
  err_divide : errmode;
  err_invalid : errmode
}.

(** numpy's state at import. *)
Definition default_errstate : errstate :=
  {| err_divide := Warn; err_invalid := Warn |}.

(** [np.seterr(divide=d, invalid=i)]: a mode left out keeps its value. *)
Definition seterr (d i : option errmode) (st : errstate) : errstate :=
  {| err_divide := default (err_divide st) d;
     err_invalid := default (err_invalid st) i |}.

(** The state after [np.seterr(divide='ignore', invalid='ignore')]. *)
Definition notebook_errstate : errstate :=
  seterr (Some Ignore) (Some Ignore) default_errstate.

Inductive exn : Type :=
| ValueError
| IndexError
| OSError
| FloatingPointError (fl : fpflag).

Inductive warning : Type :=
| FPWarning (fl : fpflag)      (* "divide by zero / invalid value encountered" *)
| MeanOfEmptySlice             (* "Mean of empty slice." *)
| DegreesOfFreedom.            (* "Degrees of freedom <= 0 for slice" *)

Inductive outcome (A : Type) : Type :=
| Ok (a : A) (ws : list warning)
| Err (e : exn).
Arguments Ok {A} a ws.
Arguments Err {A} e.

(** A numpy computation: it reads the error state, and returns a value
    with the warnings it emitted, or raises. *)
Definition NP (A : Type) : Type := errstate -> outcome A.

Definition ret {A} (a : A) : NP A := fun _ => Ok a [].
Definition raise {A} (e : exn) : NP A := fun _ => Err e.
Definition warn (w : warning) : NP unit := fun _ => Ok tt [w].
Definition bind {A B} (m : NP A) (k : A -> NP B) : NP B :=
  fun st =>
    match m st with
    | Ok a ws =>
        match k a st with
        | Ok b ws' => Ok b (ws ++ ws')
        | Err e => Err e
        end
    | Err e => Err e
    end.

(** Sequencing with a computation that returns nothing. *)
Definition andthen {A} (m : NP unit) (k : NP A) : NP A := bind m (fun _ => k).

Declare Scope np_scope.
Delimit Scope np_scope with np.
Notation "x <- m ;; k" := (bind m (fun x => k))
  (at level 100, m at next level, right associativity) : np_scope.
Notation "m ;; k" := (andthen m k)
  (at level 100, right associativity) : np_scope.
Local Open Scope np_scope.

(** The IEEE exceptions raised during one ufunc call. *)
Record fpe : Type := { fpe_divide : bool; fpe_invalid : bool }.

Definition no_fpe : fpe := {| fpe_divide := false; fpe_invalid := false |}.
Definition fpe_or (e1 e2 : fpe) : fpe :=
  {| fpe_divide := fpe_divide e1 || fpe_divide e2;
     fpe_invalid := fpe_invalid e1 || fpe_invalid e2 |}.
Definition fpe_any (es : list fpe) : fpe := fold_right fpe_or no_fpe es.

Definition report (fl : fpflag) (raised : bool) (m : errmode) : NP unit :=
  if raised then
    match m with
    | Ignore => ret tt
    | Warn => warn (FPWarning fl)
    | Raise => raise (FloatingPointError fl)
    end
  else ret tt.

(** What numpy does with the flags when a ufunc call ends: divide by zero
    is looked at before invalid. *)
Definition check (e : fpe) : NP unit :=
  fun st =>
    (report DivideByZero (fpe_divide e) (err_divide st) ;;
     report InvalidValue (fpe_invalid e) (err_invalid st)) st.

Section Numpy.
Context {F : Type} {AF : Arith F}.

(** *** IEEE exceptions of the single operations *)

(** Invalid: a NaN comes out and none went in. *)
Definition fpe_bin (op : F -> F -> F) (x y : F) : fpe :=
  {| fpe_divide := false;
     fpe_invalid := fisnan (op x y) && negb (fisnan x) && negb (fisnan y) |}.

Definition fpe_div (x y : F) : fpe :=
  {| fpe_divide := fiszero y && fisfinite x && negb (fiszero x);
     fpe_invalid :=
       fisnan (fdiv x y) && negb (fisnan x) && negb (fisnan y) |}.

Definition fpe_sqrt (x : F) : fpe :=
  {| fpe_divide := false;
     fpe_invalid := fisnan (fsqrt x) && negb (fisnan x) |}.

(** *** ufuncs over arrays *)

(** A binary ufunc over two 1-d arrays of one shape: the flags of all
    elements are gathered, then looked at once. *)
Definition ufunc2 (op : F -> F -> F) (ex : F -> F -> fpe)
    (xs ys : list F) : NP (list F) :=
  check (fpe_any (zip_with ex xs ys)) ;;
  ret (zip_with op xs ys).

Definition ufunc1 (op : F -> F) (ex : F -> fpe) (xs : list F) : NP (list F) :=
  check (fpe_any (map ex xs)) ;;
  ret (map op xs).

(** The same over two 2-d arrays (lists of rows) of one shape. *)
Definition ufunc2_2d (op : F -> F -> F) (ex : F -> F -> fpe)
    (A B : list (list F)) : NP (list (list F)) :=
  check (fpe_any (concat (zip_with (zip_with ex) A B))) ;;
  ret (zip_with (zip_with op) A B).

(** Broadcasting against an array of [rows] rows and [cols] columns:
    [v[:, None]], [v[None, :]] and a scalar. *)
Definition bcast_col (v : list F) (cols : nat) : list (list F) :=
  map (replicate cols) v.
Definition bcast_row (v : list F) (rows : nat) : list (list F) :=
  replicate rows v.
Definition bcast_scalar (r : F) (rows cols : nat) : list (list F) :=
  replicate rows (replicate cols r).

(** [np.add.reduce] along one row: the running sum starts from [0]. *)
Definition add_reduce (xs : list F) : F * fpe :=
  fold_left
    (fun acc x =>
       (fadd (fst acc) x, fpe_or (snd acc) (fpe_bin fadd (fst acc) x)))
    xs (fzero, no_fpe).

(** [X.mean(axis=1)] for an array [X] of rows of length [n], as
    [np.average(X, axis=1)] calls it in [np.cov]: the warning for an empty
    slice, the sums of the rows, their division by the count. *)
Definition mean_axis1 (X : list (list F)) (n : nat) : NP (list F) :=
  (if (n =? 0)%nat then warn MeanOfEmptySlice else ret tt) ;;
  let sums := map add_reduce X in
  check (fpe_any (map snd sums)) ;;
  ufunc2 fdiv fpe_div (map fst sums)
    (replicate (length X) (fofZ (Z.of_nat n))).

(** One entry of [np.dot(X, X.T)]: no floating-point flag is looked at. *)
Definition dot (u v : list F) : F :=
  fold_left fadd (zip_with fmul u v) fzero.

Definition matmul_T (X : list (list F)) : list (list F) :=
  map (fun u => map (fun v => dot u v) X) X.

(** [np.cov(x, y)] for two 1-d arrays, with numpy's defaults
    ([rowvar=True], [bias=False], [ddof=None], no weights). *)
Definition cov (x y : list F) : NP (list (list F)) :=
  (* X = np.concatenate((X, y), axis=0) *)
  if negb (length x =? length y)%nat then raise ValueError else
  let n := length x in
  let X := [x; y] in
  (* avg, w_sum = average(X, axis=1, weights=None, returned=True) *)
  avg <- mean_axis1 X n ;;
  (* fact = X.shape[1] - ddof; if fact <= 0: warn; fact = 0.0 *)
  fact <- (if (Z.of_nat n - 1 <=? 0)%Z
           then (warn DegreesOfFreedom ;; ret fzero)
           else ret (fofZ (Z.of_nat n - 1))) ;;
  (* X -= avg[:, None] *)
  X <- ufunc2_2d fsub (fpe_bin fsub) X (bcast_col avg n) ;;
  (* c = dot(X, X_T.conj()) *)
  let c := matmul_T X in
  (* c *= np.true_divide(1, fact) *)
  r <- ufunc2 fdiv fpe_div [fone] [fact] ;;
  ufunc2_2d fmul (fpe_bin fmul) c
    (bcast_scalar (List.hd fzero r) 2 2).

Definition diag (c : list (list F)) : list F :=
  imap (fun i row => List.nth i row fzero) c.

(** [np.maximum] and [np.minimum]: a NaN on either side comes out. *)
Definition fmaximum (x y : F) : F :=
  if fisnan x then x else if fisnan y then y
  else if fltb x y then y else x.
Definition fminimum (x y : F) : F :=
  if fisnan x then x else if fisnan y then y
  else if fltb y x then y else x.

(** [np.clip(x, lo, hi)] is [minimum(maximum(x, lo), hi)]. *)
Definition clip (lo hi x : F) : F := fminimum (fmaximum x lo) hi.

(** [np.corrcoef(x, y)] for two 1-d arrays. *)
Definition corrcoef (x y : list F) : NP (list (list F)) :=
  (* c = cov(x, y, rowvar, dtype=dtype) *)
  c <- cov x y ;;
  (* d = diag(c); stddev = sqrt(d.real) *)
  stddev <- ufunc1 fsqrt fpe_sqrt (diag c) ;;
  (* c /= stddev[:, None] *)
  c <- ufunc2_2d fdiv fpe_div c (bcast_col stddev 2) ;;
  (* c /= stddev[None, :] *)
  c <- ufunc2_2d fdiv fpe_div c (bcast_row stddev 2) ;;
  (* np.clip(c.real, -1, 1, out=c.real) *)
  ret (map (map (clip (fofZ (-1)) (fofZ 1))) c).


(** [c[i, j]] *)
Definition index2 (c : list (list F)) (i j : nat) : NP F :=
  match c !! i ≫= (.!! j) with
  | Some r => ret r
  | None => raise IndexError
  end.

(** The notebook's function:
    [def get_corrcoef(inarray1, inarray2):
         return np.corrcoef(inarray1, inarray2)[0, 1]] *)
Definition get_corrcoef (inarray1 inarray2 : list F) : NP F :=
  c <- corrcoef inarray1 inarray2 ;;
  index2 c 0 1.
End Numpy.

(** ** cftime: dates of the 360-day calendar *)

(** A date of the [360_day] calendar: twelve months of thirty days.  The
    notebook's dates all have the time of day [00:00:00]. *)
Record date : Type := mkdate { d_year : Z; d_month : Z; d_day : Z }.

#[export] Instance date_eq_dec : EqDecision date.
Proof. solve_decision. Defined.

(** Days since [0000-01-01]. *)
Definition days_of_date (t : date) : Z :=
  d_year t * 360 + (d_month t - 1) * 30 + (d_day t - 1).






(** ** xarray: labelled arrays *)

(** A variable over [(time, lat, lon)] with its three coordinates;
    [da_values] is indexed by time step, then latitude, then longitude. *)
Record DataArray (F : Type) : Type := mkDA {
  da_time : list date;
  da_lat : list F;
  da_lon : list F;
  da_values : list (list (list F))
}.
Arguments mkDA {F} _ _ _ _.
Arguments da_time {F} _.
Arguments da_lat {F} _.
Arguments da_lon {F} _.
Arguments da_values {F} _.


(** [ds.assign_coords(lon=xs)], with the same check against the size of
    the dimension, read off the existing coordinate. *)
Definition assign_coords_lon {F} (xs : list F) (ds : DataArray F)
  : exn + DataArray F :=
  if (length xs =? length (da_lon ds))%nat
  then inr (mkDA (da_time ds) (da_lat ds) xs (da_values ds))
  else inl ValueError.

(** A string of four decimal digits, the form of [str(year)] that the
    notebook passes as a label; cftime reads it at the resolution of a
    year. *)
Definition digit_of_ascii (c : ascii) : option Z :=
  let n := Z.of_nat (nat_of_ascii c) in
  if ((48 <=? n) && (n <=? 57))%Z then Some (n - 48)%Z else None.

Definition parse_year (s : string) : option Z :=
  match s with
  | String a (String b (String c (String d EmptyString))) =>
      a' ← digit_of_ascii a; b' ← digit_of_ascii b;
      c' ← digit_of_ascii c; d' ← digit_of_ascii d;
      Some (a' * 1000 + b' * 100 + c' * 10 + d')%Z
  | _ => None
  end.

(** The instants a label of yearly resolution stands for: from the first
    day of the year to the last. *)
Definition in_years (lo hi : Z) (t : date) : bool :=
  ((days_of_date (mkdate lo 1 1) <=? days_of_date t)
   && (days_of_date t <? days_of_date (mkdate (hi + 1) 1 1)))%Z.

(** [da.sel(time=slice(lo, hi))] for two labels of yearly resolution:
    the time steps whose label falls between the bounds, ends included. *)
Definition sel_time_slice {F} (lo hi : string) (da : DataArray F)
  : exn + DataArray F :=
  match parse_year lo, parse_year hi with
  | Some l, Some h =>
      let kept :=
        filter (fun tv => in_years l h (fst tv) = true)
          (zip (da_time da) (da_values da)) in
      inr (mkDA (map fst kept) (da_lat da) (da_lon da) (map snd kept))
  | _, _ => inl ValueError
  end.

(** The series of one grid cell along time: what [xr.apply_ufunc] with
    [input_core_dims=[['time'], ['time']]] and [vectorize=True] hands to the
    function, cell by cell.  A cell outside the grid has no values. *)
Definition cell_series {F} (da : DataArray F) (i j : nat) : list F :=
  omap (fun field => field !! i ≫= (.!! j)) (da_values da).


(** ** xarray: remapping onto another grid *)

Section Interp.
Context {F : Type} {AF : Arith F}.

(** The quiet NaN that fills the points outside the source grid. *)
Definition fnan : F := fdiv fzero fzero.

(** [x <= y] as numpy orders floats when it sorts. *)
Definition fle (x y : F) : Prop := fltb y x = false.

#[export] Instance fle_dec (x y : F) : Decision (fle x y).
Proof. unfold fle. apply _. Defined.

Definition key_le (p q : F * nat) : Prop := fle (fst p) (fst q).

#[export] Instance key_le_dec (p q : F * nat) : Decision (key_le p q).
Proof. unfold key_le. apply _. Defined.

(** [np.argsort(xs)]: the positions of the entries of [xs], in the order
    of their values. *)
Definition argsort (xs : list F) : list nat :=
  map snd (merge_sort key_le (zip xs (seq 0 (length xs)))).

(** [rows[idx]] for a list of positions. *)
Definition take_at {A} (idx : list nat) (rows : list A) : list A :=
  omap (fun k => rows !! k) idx.

(** [ds.sortby('lat')] and [ds.sortby('lon')]: the coordinate is brought
    into ascending order and the values follow it. *)
Definition sortby_lat (ds : DataArray F) : DataArray F :=
  let idx := argsort (da_lat ds) in
  mkDA (da_time ds) (take_at idx (da_lat ds)) (da_lon ds)
    (map (take_at idx) (da_values ds)).

Definition sortby_lon (ds : DataArray F) : DataArray F :=
  let idx := argsort (da_lon ds) in
  mkDA (da_time ds) (da_lat ds) (take_at idx (da_lon ds))
    (map (map (take_at idx)) (da_values ds)).

(** [np.searchsorted(grid, x)] on an ascending grid: the first position
    whose entry is not below [x]. *)
Fixpoint searchsorted (grid : list F) (x : F) : nat :=
  match grid with
  | [] => 0
  | g :: grid' => if fltb g x then S (searchsorted grid' x) else 0
  end.

(** scipy's [RegularGridInterpolator._find_indices] along one axis: the
    lower neighbour [i], clamped to [[0, n - 2]]; the distance to it as a
    fraction of the cell; whether [x] lies outside the grid. *)
Definition find_index (grid : list F) (x : F) : nat * F * bool :=
  let n := Z.of_nat (length grid) in
  let i := Z.to_nat
             (Z.min (Z.max (Z.of_nat (searchsorted grid x) - 1) 0) (n - 2)) in
  let g0 := List.nth i grid fzero in
  let g1 := List.nth (S i) grid fzero in
  (i, fdiv (fsub x g0) (fsub g1 g0),
   fltb x (List.hd fzero grid) || fltb (List.last grid fzero) x).

(** [np.where(ei == i, 1 - yi, yi)] *)
Definition edge_weight (upper : bool) (y : F) : F :=
  if upper then y else fsub fone y.

Definition at2 (field : list (list F)) (i j : nat) : F :=
  default fzero (field !! i ≫= (.!! j)).

(** scipy's [_evaluate_linear] at one point of a 2-d field: the four
    corners of the cell, each with the product of its two weights, summed
    from [0.] in the order of [itertools.product]. *)
Definition evaluate_linear (field : list (list F))
    (i j : nat) (yi yj : F) : F :=
  fold_left
    (fun acc e =>
       let w := fmul (fmul fone (edge_weight (fst e) yi))
                  (edge_weight (snd e) yj) in
       fadd acc
         (fmul (at2 field (i + Nat.b2n (fst e)) (j + Nat.b2n (snd e))) w))
    [(false, false); (false, true); (true, false); (true, true)]
    fzero.

(** One field remapped onto the points [(y, x)], [y] in [new_lat] and
    [x] in [new_lon]: [interpn(..., method='linear', bounds_error=False,
    fill_value=nan)]. *)
Definition interp_field (lat lon new_lat new_lon : list F)
    (field : list (list F)) : list (list F) :=
  map (fun y =>
         let '(i, yi, out_i) := find_index lat y in
         map (fun x =>
                let '(j, yj, out_j) := find_index lon x in
                if out_i || out_j then fnan
                else evaluate_linear field i j yi yj)
           new_lon)
    new_lat.

(** [ds.interp(lat=new_lat, lon=new_lon)] with xarray's defaults
    ([method='linear'], [assume_sorted=False]): the source is sorted along
    both coordinates, then every time step is remapped.  A source axis of
    fewer than two points cannot be interpolated. *)
Definition interp (new_lat new_lon : list F) (ds : DataArray F)
  : exn + DataArray F :=
  let obj := sortby_lon (sortby_lat ds) in
  if ((length (da_lat obj) <? 2) || (length (da_lon obj) <? 2))%nat
  then inl ValueError
  else inr (mkDA (da_time ds) new_lat new_lon
              (map (interp_field (da_lat obj) (da_lon obj) new_lat new_lon)
                 (da_values obj))).

(** The ERA5 longitudes moved by half a turn:
    [ds_tp_mon.assign_coords(lon=ds_tp_mon.lon+180)] *)
Definition shift_lon (ds : DataArray F) : exn + DataArray F :=
  assign_coords_lon (map (fun x => fadd x (fofZ 180)) (da_lon ds)) ds.
End Interp.

(** ** The notebook's data preparation and yearly correlation *)

(** Sequencing of the xarray steps: the first exception ends the run. *)
Definition and_then {A B} (r : exn + A) (k : A -> exn + B) : exn + B :=
  match r with
  | inr a => k a
  | inl e => inl e
  end.

Section Pipeline.
Context {F : Type} {AF : Arith F}.


(** The two yearly slices of the loop body:
    [ds_cmip6['pr'].sel(time=slice(str(year),str(year)))] and
    [ds_tp_mon_remap['pr'].sel(time=slice(str(year),str(year)))]. *)
Definition yearly_slices (ds_cmip6 ds_tp_mon_remap : DataArray F) (year : Z)
  : exn + (DataArray F * DataArray F) :=
  and_then (sel_time_slice (pretty year) (pretty year) ds_cmip6) (fun c =>
  and_then (sel_time_slice (pretty year) (pretty year) ds_tp_mon_remap)
    (fun e =>
  inr (c, e))).

End Pipeline.

(** ** xarray: a function applied cell by cell *)

Section ApplyUfunc.
Context {F : Type} {AF : Arith F}.

(** Two labels that pandas takes for equal when it compares two float
    indexes: equal as floats, or both NaN. *)
Definition same_label (x y : F) : bool :=
  feqb x y || (fisnan x && fisnan y).

(** [index.equals(other)] for two float indexes. *)
Definition same_index (xs ys : list F) : bool :=
  (length xs =? length ys)%nat
  && forallb (fun p => same_label (fst p) (snd p)) (zip xs ys).

(** A function called on the entries of a list in turn: the warnings
    accumulate, the first exception ends the loop. *)
Fixpoint np_mapM {A B} (f : A -> NP B) (l : list A) : NP (list B) :=
  match l with
  | [] => ret []
  | a :: l' => b <- f a ;; bs <- np_mapM f l' ;; ret (b :: bs)
  end.

(** [xr.apply_ufunc(func, a, b, input_core_dims=[['time'], ['time']],
                    vectorize=True)]
    for two arrays over [(time, lat, lon)].  xarray aligns the two arrays
    with [join='exact'] and raises [ValueError] when an index of the one is
    not equal to that of the other; [np.vectorize] with the signature
    [(time),(time)->()] then calls [func] on the two series of each cell, the
    cells taken row by row, and raises [ValueError] when there is no cell
    (no [otypes] are given). *)
Definition apply_ufunc (func : list F -> list F -> NP F) (a b : DataArray F)
  : NP (list (list F)) :=
  if negb (bool_decide (da_time a = da_time b)
           && same_index (da_lat a) (da_lat b)
           && same_index (da_lon a) (da_lon b))
  then raise ValueError
  else if ((length (da_lat a) =? 0) || (length (da_lon a) =? 0))%nat
  then raise ValueError
  else
    np_mapM
      (fun i =>
         np_mapM (fun j => func (cell_series a i j) (cell_series b i j))
           (seq 0 (length (da_lon a))))
      (seq 0 (length (da_lat a))).

(** The correlation map of a year, as the loop body computes it:
    [cc = xr.apply_ufunc(get_corrcoef,
            ds_cmip6['pr'].sel(time=slice(str(year),str(year))).load(),
            ds_tp_mon_remap['pr'].sel(time=slice(str(year),str(year))).load(),
            input_core_dims=[['time'], ['time']], vectorize=True)] *)
Definition correlation_of_year (ds_cmip6 ds_tp_mon_remap : DataArray F)
    (year : Z) : NP (list (list F)) :=
  match yearly_slices ds_cmip6 ds_tp_mon_remap year with
  | inl e => raise e
  | inr (c, e) => apply_ufunc get_corrcoef c e
  end.
End ApplyUfunc.

(** ** The frames, the animation and the clean-up *)

(** Python orders strings by code point, character by character. *)
Definition str_le (s1 s2 : string) : Prop := String.leb s1 s2 = true.

#[export] Instance str_le_dec (s1 s2 : string) : Decision (str_le s1 s2).
Proof. unfold str_le. apply _. Defined.

(** [sorted(names)] *)
Definition sorted (names : list string) : list string :=
  merge_sort str_le names.

Definition frame_prefix : string := "Correlation_of_Pr_CMIP6_vs_ERA5_".
Definition frame_suffix : string := ".png".

(** The name of the frame of a year, inside [output/]:
    [f"output/Correlation_of_Pr_CMIP6_vs_ERA5_{year}.png"] *)
Definition frame_name (year : Z) : string :=
  frame_prefix +:+ pretty year +:+ frame_suffix.

Definition gif_name : string := "correlation.gif".

(** A name that [glob] finds for the pattern
    ['output/Correlation_of_Pr_CMIP6_vs_ERA5_*.png']: the star stands for
    any characters, none included. *)
Definition is_frame_name (name : string) : bool :=
  let n := String.length name in
  let p := String.length frame_prefix in
  let s := String.length frame_suffix in
  (p + s <=? n)%nat
  && String.prefix frame_prefix name
  && String.eqb (String.substring (n - s) s name) frame_suffix.

Section Frames.
Context {Image : Type}.

(** What one iteration computes and draws for a year: the correlation map
    of that year under its title; any failure ends the run. *)
Variable draw : Z -> exn + Image.

(** The files of [./output]: a frame, or an animation with its frames,
    the duration of a frame and the loop count. *)
Inductive file : Type :=
| Png (img : Image)
| Gif (frames : list Image) (duration loop : Z).

(** The directory [./output], by file name; [None]: there is no such
    directory.  Every path the notebook handles lies in it, so a path
    [output/<name>] is written [<name>], and paths and names sort alike. *)
Definition outdir : Type := option (gmap string file).

(** [if not os.path.exists(outdir): os.mkdir(outdir)] *)
Definition ensure_outdir (o : outdir) : gmap string file := default ∅ o.

(** The body of [for i in range(36)]: [year=1979+i], the figure, and
    [plt.savefig(f"output/Correlation_of_Pr_CMIP6_vs_ERA5_{year}.png")]. *)
Definition frame_step (d : gmap string file) (i : nat)
  : exn + gmap string file :=
  let year := (1979 + Z.of_nat i)%Z in
  and_then (draw year) (fun img => inr (<[frame_name year := Png img]> d)).

Definition frame_loop (d : gmap string file) : exn + gmap string file :=
  fold_left (fun r i => and_then r (fun d => frame_step d i)) (seq 0 36)
    (inr d).

(** [glob.glob('output/Correlation_of_Pr_CMIP6_vs_ERA5_*.png')], in the
    order the directory lists its entries. *)
Definition glob_frames (d : gmap string file) : list string :=
  filter (fun name => is_frame_name name = true) (map fst (map_to_list d)).

(** [Image.open(f)]: the frames that saving with [save_all=True] takes
    from the image. *)
Definition open_image (d : gmap string file) (name : string)
  : exn + list Image :=
  match d !! name with
  | Some (Png img) => inr [img]
  | Some (Gif frames _ _) => inr frames
  | None => inl OSError
  end.

Fixpoint open_all (d : gmap string file) (names : list string)
  : exn + list (list Image) :=
  match names with
  | [] => inr []
  | name :: names' =>
      and_then (open_image d name) (fun img =>
      and_then (open_all d names') (fun imgs => inr (img :: imgs)))
  end.

(** [img, *imgs = [Image.open(f) for f in sorted(glob.glob(...))]]
    [img.save(fp='output/correlation.gif', format='GIF', append_images=imgs,
              save_all=True, duration=200, loop=0)] *)
Definition make_gif (d : gmap string file) : exn + gmap string file :=
  and_then (open_all d (sorted (glob_frames d))) (fun opened =>
  match opened with
  | [] => inl ValueError
  | img :: imgs =>
      inr (<[gif_name := Gif (concat (img :: imgs)) 200 0]> d)
  end).

(** [del_files = glob.glob(...)]; [for file in del_files: os.remove(file)] *)
Definition cleanup (d : gmap string file) : gmap string file :=
  fold_left (fun d name => delete name d) (glob_frames d) d.

(** The two cells in sequence. *)
Definition animate (o : outdir) : exn + gmap string file :=
  and_then (frame_loop (ensure_outdir o)) (fun d =>
  and_then (make_gif d) (fun d =>
  inr (cleanup d))).

(** The names the loop writes, in the order of the years. *)
Definition frame_names : list string :=
  map (fun i => frame_name (1979 + Z.of_nat i)) (seq 0 36).
End Frames.

(** ** The ERA5 files *)

(** The files that are opened, from the paths that [glob] finds:
    [era5_files_all = sorted(list(glob.glob(os.path.join(directory,'*/*.nc'))))]
    [era5_files = era5_files_all[:-2]] *)
Definition era5_files (found : list string) : list string :=
  let era5_files_all := sorted found in
  take (length era5_files_all - 2) era5_files_all.

(** * Definitions for the statements *)

(** ** The exact reading of the numeric code *)

(** The real-number quantities that the code computes on finite inputs. *)
Module Exact.
Local Open Scope R_scope.

Definition sumR (a : list R) : R := fold_left Rplus a 0.
Definition meanR (a : list R) : R := sumR a / IZR (Z.of_nat (length a)).
Definition devR (a : list R) : list R := map (fun x => x - meanR a) a.



End Exact.
Import Exact.

(** ** Runs in binary64 *)

Module Run64.
Local Open Scope float_scope.



End Run64.

(** A small run of the preparation in binary64: two-by-two grids, the
    ERA5 latitudes descending as in the files, 1980 and 502 time steps. *)
Module Demo.
Local Open Scope float_scope.



End Demo.

(** A run in which the figure of a year is stood for by the year itself. *)
Module RunFrames.
Definition draw (year : Z) : exn + Z := inr year.

Definition figures (i : nat) : Z := (1979 + Z.of_nat i)%Z.

(** A directory left by earlier work: a frame of some other year, and a
    file that is no frame. *)
Definition stale : outdir (Image := Z) :=
  Some (<["Correlation_of_Pr_CMIP6_vs_ERA5_1900.png" := Png 1900%Z]>
          (<["notes.txt" := Png 0%Z]> ∅)).

End RunFrames.

(** ** The loop's result, the sorted axis and the finite field *)

(** The directory after the frames of the iterations [ks], when the
    figure of iteration [i] is [imgs i]. *)
Definition write_frames {Image : Type} (imgs : nat -> Image) (ks : list nat)
    (d : gmap string (@file Image)) : gmap string (@file Image) :=
  fold_left (fun d i => <[frame_name (1979 + Z.of_nat i) := Png (imgs i)]> d)
    ks d.


Definition key_leR (a b : R * nat) : Prop := (fst a <= fst b)%R.



(** * Properties *)

Section XRealFacts.
Local Open Scope R_scope.





Lemma fisnan_NaN : fisnan NaN = true.
Proof. reflexivity. Qed.










End XRealFacts.

(** ** Facts on the monad *)

Lemma check_no_fpe (st : errstate) : check no_fpe st = Ok tt [].
Proof. reflexivity. Qed.






Lemma bind_Err {A B} (m : NP A) (k : A -> NP B) st e :
  m st = Err e -> bind m k st = Err e.
Proof. intros E. unfold bind. rewrite E. reflexivity. Qed.

(** ** Sums and dot products of reals *)

Section RealSums.
Local Open Scope R_scope.














Lemma length_devR (a : list R) : length (devR a) = length a.
Proof. apply length_map. Qed.








End RealSums.

(** ** The stages of [np.cov] on finite inputs, in exact arithmetic *)

Section ExactStages.
Local Open Scope R_scope.







End ExactStages.

(** ** [np.corrcoef] on finite inputs, in exact arithmetic *)

Section ExactCorrcoef.
Local Open Scope R_scope.



Lemma clip_NaN : clip (fofZ (-1)) (fofZ 1) NaN = NaN.
Proof. reflexivity. Qed.

End ExactCorrcoef.

(** ** Identical and negated series *)

Section Identical.
Local Open Scope R_scope.






End Identical.





(** ** Under the notebook's error state *)

Section Ignore.
Context {F : Type} {AF : Arith F}.




End Ignore.

(** ** Zero variance *)

Section ZeroVariance.
Local Open Scope R_scope.






End ZeroVariance.

Section ZeroVarianceNaN.
Local Open Scope R_scope.


Lemma fdiv_NaN_l (y : xreal) : fdiv NaN y = NaN.
Proof. reflexivity. Qed.


End ZeroVarianceNaN.




(** ** The laws of the monad *)

Lemma bind_ret_l {A B} (a : A) (k : A -> NP B) : bind (ret a) k = k a.
Proof.
  extensionality st. unfold bind, ret. destruct (k a st); reflexivity.
Qed.

Lemma bind_raise {A B} (e : exn) (k : A -> NP B) : bind (raise e) k = raise e.
Proof. reflexivity. Qed.




Lemma andthen_ret {A} (k : NP A) : andthen (ret tt) k = k.
Proof. unfold andthen. apply bind_ret_l. Qed.

(** ** The flags do not depend on the order of the elements *)




Section Swap.
Context {F : Type} {AF : Arith F}.









End Swap.

(** ** Symmetry in exact arithmetic *)

Module XRealLaws.
Import XReal.
Local Open Scope R_scope.



Ltac sgn_cases :=
  unfold sgn in *;
  repeat match goal with
    | |- context [total_order_T ?x ?y] =>
        destruct (total_order_T x y) as [[?|?]|?]
    | |- context [Req_dec_T ?x ?y] => destruct (Req_dec_T x y)
    end.



Lemma sgn_nz (v : R) : v <> 0 -> sgn v <> Eq.
Proof.
  intros Hv. unfold sgn.
  destruct (total_order_T v 0) as [[H|H]|H]; try discriminate. contradiction.
Qed.



End XRealLaws.

Section Symmetric.
Context {F : Type} {AF : Arith F}.

(** The two laws of exact arithmetic that symmetry rests on.  binary64 has
    the first and not the second: each division rounds. *)
Hypothesis fmul_comm : forall a b : F, fmul a b = fmul b a.
Hypothesis fdiv_exchange :
  forall c s t : F, fdiv (fdiv c s) t = fdiv (fdiv c t) s.


End Symmetric.


(** ** The code run in binary64 *)

Module Run64Facts.
Import Run64.
Local Open Scope float_scope.

(** A series with itself, when the deviations are exact: the two
    divisions by [sqrt 2] round, and the result is the double below [1]. *)
Remark identical_rounds :
  get_corrcoef [0; 2] [0; 2] notebook_errstate = Ok 0x1.fffffffffffffp-1 [].
Proof. vm_compute. reflexivity. Qed.

Remark negated_rounds :
  get_corrcoef [0; 2] [-0; -2] notebook_errstate
  = Ok (-0x1.fffffffffffffp-1) [].
Proof. vm_compute. reflexivity. Qed.

(** With numpy's default error state the constant series draws the
    warning that the notebook silences, and in mode [raise] numpy's
    [FloatingPointError]. *)
Remark constant_warns_by_default :
  get_corrcoef [1; 1] [1; 1] default_errstate
  = Ok nan [FPWarning InvalidValue].
Proof. vm_compute. reflexivity. Qed.

Remark constant_raises_in_raise_mode :
  get_corrcoef [1; 1] [1; 1] (seterr (Some Raise) (Some Raise) default_errstate)
  = Err (FloatingPointError InvalidValue).
Proof. vm_compute. reflexivity. Qed.

Remark unequal_lengths_raise :
  get_corrcoef [1; 2] [1] notebook_errstate = Err ValueError.
Proof. vm_compute. reflexivity. Qed.
End Run64Facts.





Section Slices.
Context {F : Type} {AF : Arith F}.




End Slices.

Section Aligned.
Context {F : Type} {AF : Arith F}.


Lemma shift_lon_inr (ds : DataArray F) :
  shift_lon ds
  = inr (mkDA (da_time ds) (da_lat ds)
           (map (fun x => fadd x (fofZ 180)) (da_lon ds)) (da_values ds)).
Proof.
  unfold shift_lon, assign_coords_lon. rewrite length_map, Nat.eqb_refl.
  reflexivity.
Qed.


End Aligned.



(** C10.  The longitude step replaces every longitude [x] by [x + 180], in
    any arithmetic, and changes nothing else; nothing is taken modulo 360.
    In exact arithmetic: an axis lying in [[lo, hi]] is moved to
    [[lo + 180, hi + 180]], and every longitude of [[180, 360)] lands at or
    above 360, outside [[0, 360)]. *)
Theorem shift_lon_adds_180 {F : Type} {AF : Arith F} (ds : DataArray F) :
  shift_lon ds
  = inr (mkDA (da_time ds) (da_lat ds)
           (map (fun x => fadd x (fofZ 180)) (da_lon ds)) (da_values ds)) /\
  (forall (l : list R),
      map (fun x => fadd x (fofZ 180)) (map Fin l)
      = map Fin (map (fun x => (x + 180)%R) l)) /\
  (forall (l : list R) (lo hi : R),
      Forall (fun x => (lo <= x <= hi)%R) l ->
      Forall (fun x => (lo + 180 <= x <= hi + 180)%R)
        (map (fun x => (x + 180)%R) l)) /\
  (forall x : R, (180 <= x < 360)%R -> ~ (0 <= x + 180 < 360)%R).
Proof.
  split; [apply shift_lon_inr|]. split; [|split].
  - intros l. rewrite !map_map. reflexivity.
  - intros l lo hi Hl. apply Forall_map. eapply Forall_impl; [exact Hl|].
    cbn beta. intros x Hx. lra.
  - intros x Hx. lra.
Qed.

(** In binary64 too: a longitude of 270 degrees becomes 450. *)
Remark shift_lon_no_wrap :
  shift_lon (mkDA [] [0%float] [270%float; (-180)%float] [])
  = inr (mkDA [] [0%float] [450%float; 0%float] []).
Proof. vm_compute. reflexivity. Qed.

(** ** The order of strings *)

Lemma ascii_compare_lt_trans (a b c : ascii) :
  Ascii.compare a b = Lt -> Ascii.compare b c = Lt -> Ascii.compare a c = Lt.
Proof.
  unfold Ascii.compare. rewrite !N.compare_lt_iff. apply N.lt_trans.
Qed.

Lemma string_compare_lt_trans (s1 s2 s3 : string) :
  String.compare s1 s2 = Lt -> String.compare s2 s3 = Lt ->
  String.compare s1 s3 = Lt.
Proof.
  revert s2 s3. induction s1 as [|a s1 IH]; intros [|b s2] [|c s3];
    cbn [String.compare]; try discriminate; try reflexivity.
  destruct (Ascii.compare a b) eqn:Hab; try discriminate;
    destruct (Ascii.compare b c) eqn:Hbc; try discriminate; intros H12 H23.
  - apply Ascii.compare_eq_iff in Hab, Hbc. subst b c.
    replace (Ascii.compare a a) with Eq; [apply (IH s2); assumption|].
    symmetry. unfold Ascii.compare. apply N.compare_refl.
  - apply Ascii.compare_eq_iff in Hab. subst b. rewrite Hbc. reflexivity.
  - apply Ascii.compare_eq_iff in Hbc. subst c. rewrite Hab. reflexivity.
  - rewrite (ascii_compare_lt_trans a b c Hab Hbc). reflexivity.
Qed.

Lemma str_le_cases (s1 s2 : string) :
  str_le s1 s2 <-> String.compare s1 s2 = Lt \/ s1 = s2.
Proof.
  unfold str_le, String.leb. split.
  - destruct (String.compare s1 s2) eqn:E; try discriminate; intros _.
    + right. apply String.compare_eq_iff, E.
    + left. reflexivity.
  - intros [->| ->]; [reflexivity|].
    replace (String.compare s2 s2) with Eq; [reflexivity|].
    symmetry. induction s2 as [|a s IH]; cbn [String.compare];
      [reflexivity|].
    replace (Ascii.compare a a) with Eq; [exact IH|].
    symmetry. unfold Ascii.compare. apply N.compare_refl.
Qed.

#[export] Instance str_le_trans : Transitive str_le.
Proof.
  intros s1 s2 s3. rewrite !str_le_cases.
  intros [H12| ->] [H23| ->]; auto.
  left. exact (string_compare_lt_trans _ _ _ H12 H23).
Qed.

#[export] Instance str_le_total : Total str_le.
Proof. intros s1 s2. apply String.leb_total. Qed.

#[export] Instance str_le_antisym : AntiSymm eq str_le.
Proof. intros s1 s2. apply String.leb_antisym. Qed.


(** ** The names of the frames *)

Lemma frame_names_length : length frame_names = 36%nat.
Proof. reflexivity. Qed.

Lemma frame_names_NoDup : NoDup frame_names.
Proof. apply (bool_decide_unpack _). vm_compute. exact I. Qed.


Lemma frame_names_match : Forall (fun n => is_frame_name n = true) frame_names.
Proof. apply (bool_decide_unpack _). vm_compute. exact I. Qed.

Lemma gif_name_no_frame : is_frame_name gif_name = false.
Proof. vm_compute. reflexivity. Qed.

Lemma frame_name_in (i : nat) :
  (i < 36)%nat -> frame_name (1979 + Z.of_nat i) ∈ frame_names.
Proof.
  intros Hi. unfold frame_names. apply list_elem_of_fmap.
  exists i. split; [reflexivity|]. apply elem_of_seq. lia.
Qed.

Lemma frame_names_lookup (i : nat) :
  (i < 36)%nat -> frame_names !! i = Some (frame_name (1979 + Z.of_nat i)).
Proof.
  intros Hi. unfold frame_names. rewrite list_lookup_fmap.
  rewrite lookup_seq_lt by exact Hi. reflexivity.
Qed.

Lemma frame_name_inj (i j : nat) :
  (i < 36)%nat -> (j < 36)%nat ->
  frame_name (1979 + Z.of_nat i) = frame_name (1979 + Z.of_nat j) -> i = j.
Proof.
  intros Hi Hj E.
  apply (NoDup_lookup frame_names i j (frame_name (1979 + Z.of_nat i))).
  - exact frame_names_NoDup.
  - apply frame_names_lookup, Hi.
  - rewrite E. apply frame_names_lookup, Hj.
Qed.

Section FrameFacts.
Context {Image : Type}.
Variable draw : Z -> exn + Image.

Abbreviation dir := (gmap string (@file Image)).

(** *** The loop *)

Lemma write_frames_cons (imgs : nat -> Image) (i : nat) (ks : list nat)
    (d : dir) :
  write_frames imgs (i :: ks) d
  = write_frames imgs ks (<[frame_name (1979 + Z.of_nat i) := Png (imgs i)]> d).
Proof. reflexivity. Qed.

Lemma frame_loop_from (imgs : nat -> Image) (ks : list nat) (d : dir) :
  (forall i, i ∈ ks -> draw (1979 + Z.of_nat i) = inr (imgs i)) ->
  fold_left (fun r i => and_then r (fun d => frame_step draw d i)) ks (inr d)
  = inr (write_frames imgs ks d).
Proof.
  revert d. induction ks as [|i ks IH]; intros d Hdraw; [reflexivity|].
  rewrite write_frames_cons. cbn [fold_left and_then]. unfold frame_step at 2.
  rewrite (Hdraw i) by (left). cbn [and_then].
  apply IH. intros j Hj. apply Hdraw. right. exact Hj.
Qed.

Lemma write_frames_other (imgs : nat -> Image) (ks : list nat) (d : dir)
    (name : string) :
  (forall i, i ∈ ks -> frame_name (1979 + Z.of_nat i) <> name) ->
  write_frames imgs ks d !! name = d !! name.
Proof.
  revert d. induction ks as [|i ks IH]; intros d Hne; [reflexivity|].
  rewrite write_frames_cons.
  rewrite IH by (intros j Hj; apply Hne; right; exact Hj).
  apply lookup_insert_ne. apply Hne. left.
Qed.

Lemma write_frames_frame (imgs : nat -> Image) (ks : list nat) (d : dir)
    (k : nat) :
  NoDup ks -> k ∈ ks -> (forall i, i ∈ ks -> (i < 36)%nat) ->
  write_frames imgs ks d !! frame_name (1979 + Z.of_nat k)
  = Some (Png (imgs k)).
Proof.
  revert d. induction ks as [|i ks IH]; intros d Hnd Hk Hlt.
  - inversion Hk.
  - rewrite write_frames_cons.
    apply NoDup_cons in Hnd as [Hi Hnd].
    apply elem_of_cons in Hk as [->|Hk].
    + rewrite write_frames_other; [apply lookup_insert_eq|].
      intros j Hj E. apply frame_name_inj in E.
      * subst j. contradiction.
      * apply Hlt. right. exact Hj.
      * apply Hlt. left.
    + apply IH; [exact Hnd|exact Hk|].
      intros j Hj. apply Hlt. right. exact Hj.
Qed.

(** Whatever the loop draws, it touches no other name than the frames'. *)
Lemma frame_loop_other (d d' : dir) (name : string) :
  frame_loop draw d = inr d' -> name ∉ frame_names -> d' !! name = d !! name.
Proof.
  unfold frame_loop, frame_names. generalize (seq 0 36). intros ks.
  revert d. induction ks as [|i ks IH]; intros d Hloop Hname.
  - cbn in Hloop. inversion Hloop. reflexivity.
  - cbn [fold_left and_then] in Hloop. unfold frame_step at 2 in Hloop.
    destruct (draw (1979 + Z.of_nat i)) as [e|img]; cbn [and_then] in Hloop.
    + exfalso. clear -Hloop. induction ks as [|j ks IH]; [discriminate|].
      apply IH. exact Hloop.
    + rewrite (IH _ Hloop).
      * apply lookup_insert_ne. intros E. apply Hname. rewrite <- E.
        cbn [map]. left.
      * intros Hin. apply Hname. cbn [map]. right. exact Hin.
Qed.

(** *** The pattern *)

Lemma elem_of_glob_frames (d : dir) (name : string) :
  name ∈ glob_frames d <-> is_frame_name name = true /\ is_Some (d !! name).
Proof.
  unfold glob_frames. rewrite list_elem_of_filter, list_elem_of_fmap.
  split.
  - intros [Hm [[n f] [-> Hin]]]. split; [exact Hm|].
    apply elem_of_map_to_list in Hin. eexists. exact Hin.
  - intros [Hm [f Hf]]. split; [exact Hm|].
    exists (name, f). split; [reflexivity|].
    apply elem_of_map_to_list. exact Hf.
Qed.


(** *** The clean-up *)

Lemma delete_all_lookup (names : list string) (d : dir) (name : string) :
  fold_left (fun d n => delete n d) names d !! name
  = if decide (name ∈ names) then None else d !! name.
Proof.
  revert d. induction names as [|n names IH]; intros d; cbn [fold_left].
  - destruct (decide (name ∈ [])) as [H|_]; [inversion H|reflexivity].
  - rewrite IH.
    destruct (decide (name ∈ names)) as [Hin|Hnin].
    + rewrite decide_True by (right; exact Hin). reflexivity.
    + destruct (decide (name = n)) as [->|Hne].
      * rewrite decide_True by left. apply lookup_delete_eq.
      * rewrite decide_False.
        -- apply lookup_delete_ne. congruence.
        -- intros H. apply elem_of_cons in H as [H|H]; contradiction.
Qed.

Lemma cleanup_lookup (d : dir) (name : string) :
  cleanup d !! name = if is_frame_name name then None else d !! name.
Proof.
  unfold cleanup. rewrite delete_all_lookup.
  destruct (decide (name ∈ glob_frames d)) as [Hin|Hnin].
  - apply elem_of_glob_frames in Hin as [-> _]. reflexivity.
  - destruct (is_frame_name name) eqn:Hm; [|reflexivity].
    destruct (d !! name) as [f|] eqn:Hf; [|reflexivity].
    exfalso. apply Hnin. apply elem_of_glob_frames.
    split; [exact Hm|]. eexists. exact Hf.
Qed.
End FrameFacts.

Section Animation.
Context {Image : Type}.
Variable draw : Z -> exn + Image.

Lemma frame_loop_result (imgs : nat -> Image) (d : gmap string file) :
  (forall i, (i < 36)%nat -> draw (1979 + Z.of_nat i) = inr (imgs i)) ->
  frame_loop draw d = inr (write_frames imgs (seq 0 36) d).
Proof.
  intros Hdraw. apply frame_loop_from. intros i Hi. apply Hdraw.
  apply elem_of_seq in Hi. lia.
Qed.

Lemma written_frame (imgs : nat -> Image) (d : gmap string file) (i : nat) :
  (i < 36)%nat ->
  write_frames imgs (seq 0 36) d !! frame_name (1979 + Z.of_nat i)
  = Some (Png (imgs i)).
Proof.
  intros Hi. apply write_frames_frame.
  - apply NoDup_seq.
  - apply elem_of_seq. lia.
  - intros j Hj. apply elem_of_seq in Hj. lia.
Qed.

Lemma written_other (imgs : nat -> Image) (d : gmap string file)
    (name : string) :
  name ∉ frame_names ->
  write_frames imgs (seq 0 36) d !! name = d !! name.
Proof.
  intros Hname. apply write_frames_other. intros i Hi E. apply Hname.
  rewrite <- E. apply frame_name_in. apply elem_of_seq in Hi. lia.
Qed.




(** C5.  When each of the thirty-six years is drawn without failure, the
    loop ends normally, whatever the output directory held (or if there was
    none), and has written exactly the thirty-six frames: the names
    [Correlation_of_Pr_CMIP6_vs_ERA5_<year>.png] for [year = 1979 + i],
    [i < 36], are pairwise distinct, fit the pattern of the frames, each
    holds the figure of its year, and no other file of the directory was
    written or changed. *)
Theorem frame_loop_writes_36 (o : outdir) (imgs : nat -> Image) :
  (forall i, (i < 36)%nat -> draw (1979 + Z.of_nat i) = inr (imgs i)) ->
  exists d,
    frame_loop draw (ensure_outdir o) = inr d /\
    length frame_names = 36%nat /\
    NoDup frame_names /\
    (forall i, (i < 36)%nat ->
       frame_names !! i
       = Some ("Correlation_of_Pr_CMIP6_vs_ERA5_"
               +:+ pretty (1979 + Z.of_nat i)%Z +:+ ".png") /\
       is_frame_name (frame_name (1979 + Z.of_nat i)) = true /\
       d !! frame_name (1979 + Z.of_nat i) = Some (Png (imgs i))) /\
    (forall name, name ∉ frame_names -> d !! name = ensure_outdir o !! name).
Proof.
  intros Hdraw. exists (write_frames imgs (seq 0 36) (ensure_outdir o)).
  split; [apply frame_loop_result, Hdraw|].
  split; [apply frame_names_length|]. split; [apply frame_names_NoDup|].
  split.
  - intros i Hi. split; [apply frame_names_lookup, Hi|]. split.
    + pose proof frame_names_match as Hall. rewrite Forall_forall in Hall.
      apply Hall, frame_name_in, Hi.
    + apply written_frame, Hi.
  - intros name Hname. apply written_other, Hname.
Qed.


(** What a run that ends normally leaves in the directory. *)
Lemma animate_result (o : outdir) (d : gmap string file) :
  animate draw o = inr d ->
  (forall name, is_frame_name name = true -> d !! name = None) /\
  (exists frames, d !! gif_name = Some (Gif frames 200 0)) /\
  (forall name,
      name <> gif_name -> is_frame_name name = false ->
      d !! name = ensure_outdir o !! name).
Proof.
  unfold animate. intros Hrun.
  destruct (frame_loop draw (ensure_outdir o)) as [e|d1] eqn:Hloop;
    [discriminate|].
  cbn [and_then] in Hrun.
  destruct (make_gif d1) as [e|d2] eqn:Hgif; [discriminate|].
  cbn [and_then] in Hrun. inversion Hrun; subst d; clear Hrun.
  unfold make_gif in Hgif.
  destruct (open_all d1 _) as [e|[|img imgs]]; try discriminate.
  cbn [and_then] in Hgif. inversion Hgif; subst d2; clear Hgif.
  split; [|split].
  - intros name Hm. rewrite cleanup_lookup, Hm. reflexivity.
  - eexists. rewrite cleanup_lookup, gif_name_no_frame.
    apply lookup_insert_eq.
  - intros name Hne Hm. rewrite cleanup_lookup, Hm.
    rewrite lookup_insert_ne by congruence.
    apply (frame_loop_other draw _ _ _ Hloop).
    intros Hin. pose proof frame_names_match as Hall.
    rewrite Forall_forall in Hall. rewrite (Hall name Hin) in Hm.
    discriminate.
Qed.

(** Every file the pattern finds can be opened. *)
Lemma open_all_total (d : gmap string (@file Image)) (names : list string) :
  Forall (fun name => is_Some (d !! name)) names ->
  exists opened, open_all d names = inr opened /\
                 length opened = length names.
Proof.
  induction 1 as [|name names [f Hf] _ (opened & Hopen & Hlen)].
  - exists []. split; reflexivity.
  - cbn [open_all]. unfold open_image. rewrite Hf, Hopen.
    destruct f as [img|frames duration loop]; cbn [and_then];
      eexists; (split; [reflexivity|]); cbn [length]; rewrite Hlen;
      reflexivity.
Qed.

(** When every year is drawn, the run ends normally, whatever the
    directory held before. *)
Lemma animate_completes (o : outdir) (imgs : nat -> Image) :
  (forall i, (i < 36)%nat -> draw (1979 + Z.of_nat i) = inr (imgs i)) ->
  exists d, animate draw o = inr d.
Proof.
  intros Hdraw. unfold animate.
  rewrite (frame_loop_result imgs _ Hdraw). cbn [and_then].
  set (d1 := write_frames imgs (seq 0 36) (ensure_outdir o)).
  unfold make_gif.
  destruct (open_all_total d1 (sorted (glob_frames d1)))
    as (opened & Hopen & Hlen).
  { apply Forall_forall. intros name Hin. unfold sorted in Hin.
    rewrite merge_sort_Permutation in Hin.
    apply elem_of_glob_frames in Hin as [_ Hsome]. exact Hsome. }
  rewrite Hopen. cbn [and_then].
  destruct opened as [|img rest]; [|eexists; reflexivity].
  exfalso. cbn [length] in Hlen. symmetry in Hlen.
  apply length_zero_iff_nil in Hlen.
  assert (Hin : frame_name (1979 + Z.of_nat 0) ∈ sorted (glob_frames d1)).
  { unfold sorted. rewrite merge_sort_Permutation.
    apply elem_of_glob_frames. split; [reflexivity|].
    unfold d1. rewrite written_frame by lia. eexists. reflexivity. }
  rewrite Hlen in Hin. inversion Hin.
Qed.

(** C8.  When every year is drawn, the run ends normally, whatever the
    output directory held before (or if there was none), and then: no file
    of the frames' pattern is left; the animation is there; and every other
    file is as it was before the run, so that the animation is the one file
    the run leaves behind. *)
Theorem only_the_animation_remains (o : outdir) (imgs : nat -> Image) :
  (forall i, (i < 36)%nat -> draw (1979 + Z.of_nat i) = inr (imgs i)) ->
  exists d,
    animate draw o = inr d /\
    (forall name, is_frame_name name = true -> d !! name = None) /\
    (exists frames, d !! gif_name = Some (Gif frames 200 0)) /\
    (forall name,
        name <> gif_name -> is_frame_name name = false ->
        d !! name = ensure_outdir o !! name).
Proof.
  intros Hdraw. destruct (animate_completes o imgs Hdraw) as [d Hd].
  exists d. split; [exact Hd|]. apply animate_result, Hd.
Qed.
End Animation.

Lemma frame_loop_writes_36_witness :
  exists d,
    frame_loop RunFrames.draw (ensure_outdir RunFrames.stale) = inr d /\
    d !! frame_name 2000 = Some (Png 2000%Z) /\
    d !! "notes.txt" = Some (Png 0%Z).
Proof.
  destruct (frame_loop_writes_36 RunFrames.draw RunFrames.stale
              RunFrames.figures (fun i _ => eq_refl))
    as (d & Hloop & _ & _ & Hframes & Hother).
  exists d. split; [exact Hloop|]. split.
  - exact (proj2 (proj2 (Hframes 21%nat ltac:(lia)))).
  - rewrite Hother; [reflexivity|].
    apply (bool_decide_unpack _). vm_compute. exact I.
Defined.



Lemma only_the_animation_remains_witness :
  exists d,
    animate RunFrames.draw RunFrames.stale = inr d /\
    (forall name, is_frame_name name = true -> d !! name = None) /\
    (exists frames, d !! gif_name = Some (Gif frames 200 0)) /\
    (forall name,
        name <> gif_name -> is_frame_name name = false ->
        d !! name = ensure_outdir RunFrames.stale !! name).
Proof.
  apply (only_the_animation_remains RunFrames.draw RunFrames.stale
           RunFrames.figures).
  intros i _. reflexivity.
Defined.

(** ** Remapping onto the same grid *)

Section SortedAxis.
Local Open Scope R_scope.



#[local] Instance key_le_total : Total (key_le (F := xreal)).
Proof.
  intros [a i] [b j]. unfold key_le, fle. cbn [fst].
  destruct a as [x| | |], b as [y| | |]; cbn [fltb xreal_arith XReal.xltb];
    auto.
  destruct (Rlt_dec y x), (Rlt_dec x y); auto. lra.
Qed.


#[local] Instance key_leR_trans : Transitive key_leR.
Proof. intros a b c. unfold key_leR. lra. Qed.

End SortedAxis.

Section Node.
Local Open Scope R_scope.









End Node.

Section Colocated.
Local Open Scope R_scope.





End Colocated.

Section ColocatedField.
Local Open Scope R_scope.

End ColocatedField.



(** The same in binary64, on a grid whose latitudes descend: the weights
    of a grid point are exactly [0] and [1]. *)
Remark interp_colocated_binary64 :
  let ds := mkDA [mkdate 1979 1 15] [90; 0; -90]%float [0; 120; 240]%float
              [[[1; 2; 3]; [4; 5; 6]; [7; 8; 9]]]%float in
  interp (da_lat ds) (da_lon ds) ds = inr ds.
Proof. vm_compute. reflexivity. Qed.

